(** * Toolbar overflow fitting: a shallow embedding of [poc1.tsx]

    The component keeps a cache of the end offsets of its rendered options
    (a React ref), and on every window resize publishes the prefix of the
    options that fits the wrapper.  Pixel quantities are modelled as
    integers; [undefined], which JavaScript yields when an array is read
    past its end, is modelled by [None]. *)

From Stdlib Require Import String ZArith List Bool Lia Sorted.
Import ListNotations.

Open Scope Z_scope.

(** ** Data model *)

(** The type [BulkActionOptionProps] is declared outside the component
    body.  The body reads one field of it, [children]; an absent field of a
    JavaScript object reads as [undefined], so every field is optional and
    the empty object has none. *)
#[local] Unset Elimination Schemes.
Inductive BulkActionOptionProps : Type :=
  mkOption { label : option string;
             children : option (list BulkActionOptionProps) }.
#[local] Set Elimination Schemes.

(** [{ ...undefined }] is the empty object. *)
Definition empty_object : BulkActionOptionProps :=
  {| label := None; children := None |}.

(** [{ ...o }]: a shallow copy. *)
Definition spread (o : option BulkActionOptionProps) : BulkActionOptionProps :=
  match o with
  | Some props => props
  | None => empty_object
  end.

(** [!option.children] is false exactly when the field holds a collection
    (an array is truthy, also when empty). *)
Definition has_children (option : BulkActionOptionProps) : bool :=
  match children option with
  | Some _ => true
  | None => false
  end.

(** What [getBoundingClientRect()] returns, as far as the component reads it. *)
Record DOMRect : Type := mkRect { x : Z; width : Z }.

(** An element, as far as the component reads it: its [clientWidth] and the
    bounding rectangles of [[...element.children]]. *)
Record HTMLElement : Type :=
  mkElement { clientWidth : Z; child_rects : list DOMRect }.

(** A React ref object: [current] is [null] until an element is bound. *)
Record RefObject (A : Type) : Type := mkRef { current : option A }.
Arguments mkRef {A} _.
Arguments current {A} _.

(** [ref?.current] on a ref that may itself be absent. *)
Definition optional_current {A : Type} (ref : option (RefObject A)) : option A :=
  match ref with
  | Some r => current r
  | None => None
  end.

(** [Array.prototype.some], whose callback receives the element and its
    index; it stops at the first element the callback accepts. *)
Fixpoint some_from {A : Type} (callback : A -> nat -> bool)
    (index : nat) (array : list A) : bool :=
  match array with
  | [] => false
  | element :: rest =>
      if callback element index then true
      else some_from callback (S index) rest
  end.

Definition some {A : Type} (callback : A -> nat -> bool) (array : list A) : bool :=
  some_from callback 0%nat array.

(** [v >= n] where [v] may be [undefined]: [undefined] converts to [NaN],
    and every comparison with [NaN] is false. *)
Definition ge_number (v : option Z) (n : Z) : bool :=
  match v with
  | Some a => n <=? a
  | None => false
  end.

(** *** What the callbacks read and write *)

(** What the component reads from its props, its refs and the window when a
    callback runs. *)
Record Env : Type := mkEnv {
  options : list BulkActionOptionProps;
  innerWidth : Z;
  wrapper_ref : option (RefObject HTMLElement);
  toolbar_wrapper_ref : option (RefObject HTMLElement);
  toolbar_options_ref : RefObject HTMLElement
}.

(** The console. *)
Inductive LogEntry : Type :=
| console_error (message : string)
| console_warn (message : string) (arguments : list Z).

(** The value held by [toolbar_options_x_coordinates_ref.current]: an array
    of numbers, or anything else. *)
Inductive RefValue : Type :=
| NotAnArray
| IsArray (x_coordinates : list Z).

Definition Array_isArray (v : RefValue) : bool :=
  match v with
  | IsArray _ => true
  | NotAnArray => false
  end.

Definition is_bound {A : Type} (element : option A) : bool :=
  match element with
  | Some _ => true
  | None => false
  end.

(** The mutable state of a mounted component: the cache, the published
    subset, the console, the effects a render has registered that have not
    run yet, and whether the resize listener is registered. *)
Record Component : Type := mkComponent {
  toolbar_options_x_coordinates_ref : RefValue;
  options_to_be_visible : list BulkActionOptionProps;
  console : list LogEntry;
  layout_effect_pending : bool;
  effect_pending : bool;
  resize_listener : bool
}.

Inductive Event : Type :=
| Render (env : Env)
| LayoutEffect (env : Env)
| Effect (env : Env)
| Resize (env : Env)
| Unmount.

(** ** The component *)

Section Component.

(** The two configuration constants are declared outside the component body. *)
Variable MIN_GAP_BETWEEN_SCREEN_AND_LAST_ICON : Z.
Variable MAX_OPTIONS_TO_DISPLAY : Z.

(** The callback handed to [options.some] in [is_child_reached]. *)
Definition child_reached_at (x_coordinates : list Z) (wrapper_width : Z)
    (option : BulkActionOptionProps) (index : nat) : bool :=
  if negb (has_children option) then false
  else ge_number (nth_error x_coordinates index)
                 (wrapper_width - MIN_GAP_BETWEEN_SCREEN_AND_LAST_ICON).

Definition is_child_reached (options : list BulkActionOptionProps)
    (x_coordinates : list Z) (wrapper_width : Z) : bool :=
  some (child_reached_at x_coordinates wrapper_width) options.

(** *** The fit pass: [update_display_options_on_window_resize] *)

(** Lines 38-41: the wrapper's width, or the window's. *)
Definition measure_wrapper_width (env : Env) : Z :=
  let wrapper_width := innerWidth env in
  match optional_current (wrapper_ref env) with
  | Some element => clientWidth element
  | None => wrapper_width
  end.

(** Lines 49-52. *)
Definition display_options_count (x_coordinates : list Z) (wrapper_width : Z) : nat :=
  length (filter
            (fun x_end_point =>
               x_end_point <=? wrapper_width - MIN_GAP_BETWEEN_SCREEN_AND_LAST_ICON)
            x_coordinates).

(** The [for] loop of lines 55-59, entered at [index] with [remaining]
    iterations left before [index] reaches [display_options_count]. *)
Fixpoint select_options (options : list BulkActionOptionProps)
    (remaining index : nat) (selected_options : list BulkActionOptionProps)
    : list BulkActionOptionProps :=
  match remaining with
  | O => selected_options
  | S remaining' =>
      if (MAX_OPTIONS_TO_DISPLAY <=? Z.of_nat index)
         || (length options <=? index)%nat
      then selected_options
      else select_options options remaining' (S index)
             (selected_options ++ [spread (nth_error options index)])
  end.

(** Lines 43-61 at a given width.  [Some selected] stands for the call
    [set_options_to_be_visible(selected)], [None] for the early [return]. *)
Definition fit_options (options : list BulkActionOptionProps)
    (x_coordinates : list Z) (wrapper_width : Z)
    : option (list BulkActionOptionProps) :=
  if is_child_reached options x_coordinates wrapper_width then None
  else Some (select_options options
               (display_options_count x_coordinates wrapper_width) 0%nat []).

Definition update_display_options_on_window_resize (env : Env)
    (x_coordinates : list Z) : option (list BulkActionOptionProps) :=
  fit_options (options env) x_coordinates (measure_wrapper_width env).

(** The state cell behind [set_options_to_be_visible]: a pass that returns
    early leaves it as it was. *)
Definition publish (published : option (list BulkActionOptionProps))
    (options_to_be_visible : list BulkActionOptionProps)
    : list BulkActionOptionProps :=
  match published with
  | Some selected_options => selected_options
  | None => options_to_be_visible
  end.

(** *** Geometry capture: the layout effect *)

(** The [map] of lines 81-88; [first_x] is the variable the callback assigns
    at index 0 and reads at every index. *)
Fixpoint map_end_points (option_elements : list DOMRect) (index : nat)
    (first_x : Z) : list Z :=
  match option_elements with
  | [] => []
  | rect :: rest =>
      let first_x := if (index =? 0)%nat then x rect else first_x in
      (x rect + width rect - first_x + MIN_GAP_BETWEEN_SCREEN_AND_LAST_ICON)
        :: map_end_points rest (S index) first_x
  end.

(** Lines 73-88: without a bound container the result is [[]]. *)
Definition client_rects_end_point (container : RefObject HTMLElement) : list Z :=
  match current container with
  | Some element => map_end_points (child_rects element) 0%nat 0
  | None => []
  end.

(** Lines 72-94: the new content of the offset cache. *)
Definition capture_offsets (container : RefObject HTMLElement)
    (x_coordinates : list Z) : list Z :=
  if (length x_coordinates =? 0)%nat then client_rects_end_point container
  else x_coordinates.

(** *** Final validations *)

(** Lines 119-145, in order: the cache after the pass and the lines logged.
    [options] is an array by its type, so its check is on the length alone. *)
Definition final_validations (env : Env) (x_coordinates_ref : RefValue)
    : RefValue * list LogEntry :=
  let '(x_coordinates_ref, log_ref) :=
    if negb (Array_isArray x_coordinates_ref)
    then (IsArray [],
          [console_error
             "Error: toolbar_options_x_coordinates_ref.current is not initialized as an array."%string])
    else (x_coordinates_ref, []) in
  let log_max :=
    if MAX_OPTIONS_TO_DISPLAY <=? 0
    then [console_warn
            "Warning: MAX_OPTIONS_TO_DISPLAY should be greater than 0. Current value:"%string
            [MAX_OPTIONS_TO_DISPLAY]]
    else [] in
  let log_options :=
    if (length (options env) =? 0)%nat
    then [console_error
            "Error: The 'options' array is either not initialized or empty."%string]
    else [] in
  let log_wrapper :=
    if negb (is_bound (optional_current (wrapper_ref env)))
    then [console_warn
            "Warning: wrapper_ref is not assigned to any DOM element."%string []]
    else [] in
  let log_container :=
    if negb (is_bound (current (toolbar_options_ref env)))
    then [console_warn
            "Warning: toolbar_options_ref is not assigned to any DOM element."%string []]
    else [] in
  (x_coordinates_ref,
   log_ref ++ log_max ++ log_options ++ log_wrapper ++ log_container).

(** *** The component over time

    React calls the component body (a render), which registers the two
    effects and runs the final validations; the effects run after the render
    that registered them, and the resize listener runs only while it is
    registered.  An effect whose dependencies did not change is skipped, so
    after a render each effect may run or not. *)

(** The body of the component, called by a render. *)
Definition render (env : Env) (c : Component) : Component :=
  let '(ref, logged) := final_validations env (toolbar_options_x_coordinates_ref c) in
  {| toolbar_options_x_coordinates_ref := ref;
     options_to_be_visible := options_to_be_visible c;
     console := console c ++ logged;
     layout_effect_pending := true;
     effect_pending := true;
     resize_listener := resize_listener c |}.

(** One event.  [None]: a callback read the cache while it held something
    that is not an array, which this embedding gives no meaning to (on
    [null] or [undefined] it is a TypeError). *)
Definition step (event : Event) (c : Component) : option Component :=
  match event with
  | Render env => Some (render env c)
  | LayoutEffect env =>
      if layout_effect_pending c then
        match toolbar_options_x_coordinates_ref c with
        | IsArray x_coordinates =>
            Some {| toolbar_options_x_coordinates_ref :=
                      IsArray (capture_offsets (toolbar_options_ref env) x_coordinates);
                    options_to_be_visible := options_to_be_visible c;
                    console := console c;
                    layout_effect_pending := false;
                    effect_pending := effect_pending c;
                    resize_listener := resize_listener c |}
        | NotAnArray => None
        end
      else Some c
  | Effect env =>
      if effect_pending c then
        Some {| toolbar_options_x_coordinates_ref := toolbar_options_x_coordinates_ref c;
                options_to_be_visible := options_to_be_visible c;
                console := console c;
                layout_effect_pending := layout_effect_pending c;
                effect_pending := false;
                resize_listener := is_bound (optional_current (toolbar_wrapper_ref env)) |}
      else Some c
  | Resize env =>
      if resize_listener c then
        match toolbar_options_x_coordinates_ref c with
        | IsArray x_coordinates =>
            Some {| toolbar_options_x_coordinates_ref := IsArray x_coordinates;
                    options_to_be_visible :=
                      publish (update_display_options_on_window_resize env x_coordinates)
                              (options_to_be_visible c);
                    console := console c;
                    layout_effect_pending := layout_effect_pending c;
                    effect_pending := effect_pending c;
                    resize_listener := true |}
        | NotAnArray => None
        end
      else Some c
  | Unmount =>
      Some {| toolbar_options_x_coordinates_ref := toolbar_options_x_coordinates_ref c;
              options_to_be_visible := options_to_be_visible c;
              console := console c;
              layout_effect_pending := false;
              effect_pending := false;
              resize_listener := false |}
  end.

Fixpoint run (events : list Event) (c : Component) : option Component :=
  match events with
  | [] => Some c
  | event :: later =>
      match step event c with
      | Some c' => run later c'
      | None => None
      end
  end.

(** A component before its first render: nothing registered yet. *)
Definition unmounted (c : Component) : Prop :=
  layout_effect_pending c = false /\ effect_pending c = false
  /\ resize_listener c = false.

(** The number of options the loop can reach: it leaves at the first index
    that is at least [MAX_OPTIONS_TO_DISPLAY] or at least [options.length]. *)
Definition loop_bound (options : list BulkActionOptionProps) : nat :=
  Nat.min (Z.to_nat MAX_OPTIONS_TO_DISPLAY) (length options).

(** Whenever a callback that reads the cache may still run, the cache holds
    an array. *)
Definition cache_ready (c : Component) : Prop :=
  layout_effect_pending c = true \/ effect_pending c = true
  \/ resize_listener c = true ->
  Array_isArray (toolbar_options_x_coordinates_ref c) = true.

(** *** Notions used to state further properties *)

(** Rectangles that follow one another from left to right without
    overlapping, none of negative width. *)
Fixpoint left_to_right (rects : list DOMRect) : bool :=
  match rects with
  | [] => true
  | rect :: rest =>
      (0 <=? width rect)
      && match rest with
         | [] => true
         | next :: _ => x rect + width rect <=? x next
         end
      && left_to_right rest
  end.

Definition is_render (event : Event) : bool :=
  match event with
  | Render _ => true
  | _ => false
  end.

(** ** Sample inputs *)

Definition plain_option (name : string) : BulkActionOptionProps :=
  {| label := Some name; children := None |}.

Definition parent_option (name : string) : BulkActionOptionProps :=
  {| label := Some name; children := Some [plain_option "nested"%string] |}.

(** Five options without children, and their offsets. *)
Definition five_options : list BulkActionOptionProps :=
  map plain_option ["a"; "b"; "c"; "d"; "e"]%string.

Definition five_offsets : list Z := [50; 120; 200; 300; 420].

(** The same, with children on the option at index 2. *)
Definition five_options_with_parent : list BulkActionOptionProps :=
  [plain_option "a"; plain_option "b"; parent_option "c";
   plain_option "d"; plain_option "e"]%string.

Definition unbound_container : RefObject HTMLElement := mkRef None.

(** Five rendered options; with a gap of 10 their offsets are [five_offsets]. *)
Definition five_rects : list DOMRect :=
  [mkRect 8 40; mkRect 56 62; mkRect 126 72; mkRect 206 92; mkRect 306 112].

Definition rendered_container (rects : list DOMRect) : RefObject HTMLElement :=
  mkRef (Some (mkElement 600 rects)).

(** A wrapper of the given client width inside a window 1024 wide. *)
Definition env_of_width (options : list BulkActionOptionProps) (w : Z) : Env :=
  {| options := options;
     innerWidth := 1024;
     wrapper_ref := Some (mkRef (Some (mkElement w [])));
     toolbar_wrapper_ref := Some (mkRef (Some (mkElement w [])));
     toolbar_options_ref := rendered_container five_rects |}.

(** No wrapper bound: only the window can be measured. *)
Definition env_without_wrapper (options : list BulkActionOptionProps) : Env :=
  {| options := options;
     innerWidth := 1024;
     wrapper_ref := Some (mkRef None);
     toolbar_wrapper_ref := None;
     toolbar_options_ref := unbound_container |}.

(** A component that was handed a cache that is not an array. *)
Definition fresh_component : Component :=
  {| toolbar_options_x_coordinates_ref := NotAnArray;
     options_to_be_visible := five_options;
     console := [];
     layout_effect_pending := false;
     effect_pending := false;
     resize_listener := false |}.

Definition mount_then_resize : list Event :=
  [Render (env_of_width five_options 250);
   LayoutEffect (env_of_width five_options 250);
   Effect (env_of_width five_options 250);
   Resize (env_of_width five_options 250)].

(** Options and a cache for a narrow and for a wide wrapper. *)
Definition three_options : list BulkActionOptionProps :=
  map plain_option ["a"; "b"; "c"]%string.

Definition three_offsets : list Z := [50; 120; 200].

(** A mounted component whose cache is populated. *)
Definition captured_component : Component :=
  {| toolbar_options_x_coordinates_ref := IsArray five_offsets;
     options_to_be_visible := five_options;
     console := [];
     layout_effect_pending := true;
     effect_pending := true;
     resize_listener := true |}.

(** A later render whose container shows three other rectangles. *)
Definition later_env : Env :=
  {| options := three_options;
     innerWidth := 800;
     wrapper_ref := Some (mkRef (Some (mkElement 130 [])));
     toolbar_wrapper_ref := Some (mkRef (Some (mkElement 130 [])));
     toolbar_options_ref :=
       rendered_container [mkRect 0 10; mkRect 10 10; mkRect 20 10] |}.

Definition later_events : list Event :=
  [Render later_env; LayoutEffect later_env; Effect later_env; Resize later_env].

(** Events of a component whose [toolbar_wrapper_ref] is never bound. *)
Definition unbound_events : list Event :=
  [Render (env_without_wrapper five_options);
   LayoutEffect (env_without_wrapper five_options);
   Effect (env_without_wrapper five_options);
   Resize (env_of_width five_options 100)].

(** Events after a teardown, none of them a render. *)
Definition events_after_unmount : list Event :=
  [Resize (env_of_width five_options 100);
   LayoutEffect (env_of_width five_options 100);
   Effect (env_of_width five_options 100);
   Resize (env_of_width five_options 60)].

(** ** Properties *)

(** *** The overflow guard *)

Lemma some_from_true {A : Type} (callback : A -> nat -> bool) (array : list A) :
  forall start,
    some_from callback start array = true <->
    exists index element,
      nth_error array index = Some element
      /\ callback element (start + index)%nat = true.
Proof.
  induction array as [|a rest IH]; intros start; simpl.
  - split; [discriminate|].
    intros (index & element & Hnth & _). destruct index; discriminate.
  - destruct (callback a start) eqn:Hcb.
    + split; [intros _|reflexivity].
      exists 0%nat, a. rewrite Nat.add_0_r. auto.
    + rewrite IH. split.
      * intros (index & element & Hnth & Hc).
        exists (S index), element. rewrite Nat.add_succ_r. auto.
      * intros (index & element & Hnth & Hc).
        destruct index as [|index]; simpl in Hnth.
        -- injection Hnth as ->. rewrite Nat.add_0_r in Hc. congruence.
        -- exists index, element. rewrite Nat.add_succ_r in Hc. auto.
Qed.

Lemma some_true {A : Type} (callback : A -> nat -> bool) (array : list A) :
  some callback array = true <->
  exists index element,
    nth_error array index = Some element /\ callback element index = true.
Proof. unfold some. rewrite some_from_true. reflexivity. Qed.

Lemma child_reached_at_true x_coordinates wrapper_width option index :
  child_reached_at x_coordinates wrapper_width option index = true <->
  has_children option = true
  /\ exists offset,
       nth_error x_coordinates index = Some offset
       /\ wrapper_width - MIN_GAP_BETWEEN_SCREEN_AND_LAST_ICON <= offset.
Proof.
  unfold child_reached_at, ge_number.
  destruct (has_children option); simpl.
  - destruct (nth_error x_coordinates index) as [offset|].
    + rewrite Z.leb_le. split.
      * intros H. split; [reflexivity|]. exists offset. auto.
      * intros (_ & offset' & Heq & H). injection Heq as <-. exact H.
    + split; [discriminate|]. intros (_ & offset & Heq & _). discriminate.
  - split; [discriminate|]. intros (H & _). discriminate.
Qed.

Lemma has_children_true option :
  has_children option = true <-> children option <> None.
Proof.
  unfold has_children. destruct (children option); split; congruence.
Qed.

(** The guard as an existence statement. *)
Lemma is_child_reached_guard options x_coordinates wrapper_width :
  (exists index option offset,
      nth_error options index = Some option
      /\ children option <> None
      /\ nth_error x_coordinates index = Some offset
      /\ offset >= wrapper_width - MIN_GAP_BETWEEN_SCREEN_AND_LAST_ICON) ->
  is_child_reached options x_coordinates wrapper_width = true.
Proof.
  intros (index & option & offset & Hnth & Hch & Hoff & Hge).
  unfold is_child_reached. apply some_true.
  exists index, option. split; [exact Hnth|].
  apply child_reached_at_true. rewrite has_children_true.
  split; [exact Hch|]. exists offset. split; [exact Hoff|lia].
Qed.

(** C3. [is_child_reached] answers true exactly when some option that has
    the [children] marker has, at its own index, a cached offset that is at
    least [wrapper_width - MIN_GAP_BETWEEN_SCREEN_AND_LAST_ICON]; an option
    without children is rejected by the callback whatever the cache holds. *)
Theorem is_child_reached_iff :
  forall (options : list BulkActionOptionProps) (x_coordinates : list Z)
         (wrapper_width : Z),
    (is_child_reached options x_coordinates wrapper_width = true <->
     exists index option offset,
       nth_error options index = Some option
       /\ children option <> None
       /\ nth_error x_coordinates index = Some offset
       /\ offset >= wrapper_width - MIN_GAP_BETWEEN_SCREEN_AND_LAST_ICON)
    /\ (forall option index,
          children option = None ->
          child_reached_at x_coordinates wrapper_width option index = false).
Proof.
  intros options x_coordinates wrapper_width. split.
  - split.
    + intros Hreached.
      apply some_true in Hreached as (index & option & Hnth & Hc).
      apply child_reached_at_true in Hc as (Hch & offset & Hoff & Hge).
      exists index, option, offset. rewrite <- has_children_true.
      repeat split; auto. lia.
    + apply is_child_reached_guard.
  - intros option index Hnone.
    unfold child_reached_at, has_children. rewrite Hnone. reflexivity.
Qed.

(** C6. With an empty cache [is_child_reached] is false for every width,
    and an option whose index has no cache entry is answered false by the
    callback: the read yields [undefined], the comparison is false, and
    nothing is raised. *)
Theorem is_child_reached_absent_entry :
  (forall (options : list BulkActionOptionProps) (wrapper_width : Z),
      is_child_reached options [] wrapper_width = false)
  /\ (forall (x_coordinates : list Z) (wrapper_width : Z)
             (option : BulkActionOptionProps) (index : nat),
         nth_error x_coordinates index = None ->
         child_reached_at x_coordinates wrapper_width option index = false).
Proof.
  assert (Habsent : forall x_coordinates wrapper_width option index,
             nth_error x_coordinates index = None ->
             child_reached_at x_coordinates wrapper_width option index = false).
  { intros x_coordinates wrapper_width option index Hnone.
    unfold child_reached_at. rewrite Hnone. simpl.
    destruct (has_children option); reflexivity. }
  split; [|exact Habsent].
  intros options wrapper_width.
  destruct (is_child_reached options [] wrapper_width) eqn:Hreached; [|reflexivity].
  apply some_true in Hreached as (index & option & _ & Hc).
  rewrite Habsent in Hc; [discriminate|]. destruct index; reflexivity.
Qed.

(** *** The fit pass *)

Lemma loop_guard options index :
  (MAX_OPTIONS_TO_DISPLAY <=? Z.of_nat index) || (length options <=? index)%nat
  = (loop_bound options <=? index)%nat.
Proof.
  unfold loop_bound. apply eq_true_iff_eq.
  rewrite orb_true_iff, Z.leb_le, !Nat.leb_le. lia.
Qed.

Lemma firstn_snoc {A : Type} (l : list A) (n : nat) (a : A) :
  nth_error l n = Some a -> firstn n l ++ [a] = firstn (S n) l.
Proof.
  revert n. induction l as [|b l IH]; intros [|n] H; simpl in *;
    try discriminate.
  - injection H as ->. reflexivity.
  - f_equal. apply IH. exact H.
Qed.

(** Loop invariant: entered at [index] with the first [index] options
    selected, the loop ends with a longer prefix selected. *)
Lemma select_options_prefix options :
  forall remaining index,
    (index <= loop_bound options)%nat ->
    select_options options remaining index (firstn index options)
    = firstn (Nat.min (index + remaining) (loop_bound options)) options.
Proof.
  induction remaining as [|remaining IH]; intros index Hle; simpl.
  - f_equal. lia.
  - rewrite loop_guard. destruct (loop_bound options <=? index)%nat eqn:Hguard.
    + apply Nat.leb_le in Hguard. f_equal. lia.
    + apply Nat.leb_gt in Hguard.
      assert (Hlen : (index < length options)%nat)
        by (unfold loop_bound in Hguard; lia).
      destruct (nth_error options index) as [option|] eqn:Hnth.
      * simpl. rewrite (firstn_snoc _ _ _ Hnth), IH by lia.
        f_equal. lia.
      * apply nth_error_None in Hnth. lia.
Qed.

Lemma fit_options_prefix options x_coordinates wrapper_width :
  is_child_reached options x_coordinates wrapper_width = false ->
  fit_options options x_coordinates wrapper_width
  = Some (firstn (Nat.min (display_options_count x_coordinates wrapper_width)
                          (loop_bound options))
                 options).
Proof.
  intros Hguard. unfold fit_options. rewrite Hguard. f_equal.
  apply (select_options_prefix options _ 0%nat). lia.
Qed.



(** C2. When an option with children has a cached offset that is at least
    the width less the gap, the pass returns before the call to
    [set_options_to_be_visible]: whatever was published before stays. *)
Theorem update_display_retains_on_child_overflow :
  forall (env : Env) (x_coordinates : list Z) (index : nat)
         (option : BulkActionOptionProps) (offset : Z),
    nth_error (options env) index = Some option ->
    children option <> None ->
    nth_error x_coordinates index = Some offset ->
    offset >= measure_wrapper_width env - MIN_GAP_BETWEEN_SCREEN_AND_LAST_ICON ->
    update_display_options_on_window_resize env x_coordinates = None
    /\ forall previously_visible,
         publish (update_display_options_on_window_resize env x_coordinates)
                 previously_visible
         = previously_visible.
Proof.
  intros env x_coordinates index option offset Hopt Hch Hoff Hge.
  assert (Hnone : update_display_options_on_window_resize env x_coordinates = None).
  { unfold update_display_options_on_window_resize, fit_options.
    replace (is_child_reached (options env) x_coordinates (measure_wrapper_width env))
      with true; [reflexivity|].
    symmetry. apply is_child_reached_guard.
    exists index, option, offset. auto. }
  split; [exact Hnone|]. intros previously_visible. rewrite Hnone. reflexivity.
Qed.

(** C7, amended.  With [MAX_OPTIONS_TO_DISPLAY <= 0] the validations log the
    warning, and at every width and for every cache at which no option with
    children overflows, the pass publishes the empty subset, however many
    offsets fit: the visible options then have length 0 whatever they were
    before. *)
Theorem non_positive_max_caps_at_zero :
  MAX_OPTIONS_TO_DISPLAY <= 0 ->
  (forall (env : Env) (x_coordinates_ref : RefValue),
      In (console_warn
            "Warning: MAX_OPTIONS_TO_DISPLAY should be greater than 0. Current value:"
            [MAX_OPTIONS_TO_DISPLAY])
         (snd (final_validations env x_coordinates_ref)))
  /\ (forall (env : Env) (x_coordinates : list Z),
         is_child_reached (options env) x_coordinates (measure_wrapper_width env)
         = false ->
         update_display_options_on_window_resize env x_coordinates = Some []
         /\ forall previously_visible,
              length (publish
                        (update_display_options_on_window_resize env x_coordinates)
                        previously_visible)
              = 0%nat).
Proof.
  intros Hmax. split.
  - intros env x_coordinates_ref. unfold final_validations.
    destruct (negb (Array_isArray x_coordinates_ref)); simpl;
      apply Z.leb_le in Hmax; rewrite Hmax; simpl; auto.
  - intros env x_coordinates Hguard.
    assert (Hpass : update_display_options_on_window_resize env x_coordinates
                    = Some []).
    { unfold update_display_options_on_window_resize.
      rewrite (fit_options_prefix _ _ _ Hguard).
      replace (loop_bound (options env)) with 0%nat
        by (unfold loop_bound; lia).
      rewrite Nat.min_0_r. reflexivity. }
    split; [exact Hpass|]. intros previously_visible. rewrite Hpass. reflexivity.
Qed.

(** C9. The width a pass fits against is the wrapper's [clientWidth] when
    [wrapper_ref] holds an element, and [window.innerWidth] when it holds
    none. *)
Theorem update_display_width_source :
  (forall (env : Env) (element : HTMLElement) (x_coordinates : list Z),
      optional_current (wrapper_ref env) = Some element ->
      measure_wrapper_width env = clientWidth element
      /\ update_display_options_on_window_resize env x_coordinates
         = fit_options (options env) x_coordinates (clientWidth element))
  /\ (forall (env : Env) (x_coordinates : list Z),
         optional_current (wrapper_ref env) = None ->
         measure_wrapper_width env = innerWidth env
         /\ update_display_options_on_window_resize env x_coordinates
            = fit_options (options env) x_coordinates (innerWidth env)).
Proof.
  split.
  - intros env element x_coordinates Hbound.
    unfold update_display_options_on_window_resize, measure_wrapper_width.
    rewrite Hbound. split; reflexivity.
  - intros env x_coordinates Hunbound.
    unfold update_display_options_on_window_resize, measure_wrapper_width.
    rewrite Hunbound. split; reflexivity.
Qed.

(** C10. Without options the guard is false at every width, so every pass
    reaches [set_options_to_be_visible] and publishes the empty prefix; what
    was published before is replaced, not retained. *)
Theorem no_options_publishes_empty :
  (forall (x_coordinates : list Z) (wrapper_width : Z),
      is_child_reached [] x_coordinates wrapper_width = false)
  /\ (forall (env : Env) (x_coordinates : list Z),
         options env = [] ->
         update_display_options_on_window_resize env x_coordinates = Some []
         /\ forall previously_visible,
              publish (update_display_options_on_window_resize env x_coordinates)
                      previously_visible
              = []).
Proof.
  split; [reflexivity|].
  intros env x_coordinates Hempty.
  assert (Hpass : update_display_options_on_window_resize env x_coordinates = Some []).
  { unfold update_display_options_on_window_resize, fit_options.
    rewrite Hempty. simpl.
    destruct (display_options_count _ _); simpl; [reflexivity|].
    rewrite orb_true_r. reflexivity. }
  split; [exact Hpass|]. intros previously_visible. rewrite Hpass. reflexivity.
Qed.

(** *** Geometry capture *)

(** Past index 0 the callback no longer assigns [first_x]. *)
Lemma map_end_points_later (option_elements : list DOMRect) :
  forall index first_x,
    index <> 0%nat ->
    map_end_points option_elements index first_x
    = map (fun rect =>
             x rect + width rect - first_x + MIN_GAP_BETWEEN_SCREEN_AND_LAST_ICON)
          option_elements.
Proof.
  induction option_elements as [|rect rest IH]; intros index first_x Hpos;
    simpl; [reflexivity|].
  destruct (Nat.eqb_spec index 0) as [->|_]; [contradiction|].
  f_equal. apply IH. discriminate.
Qed.

Lemma map_end_points_first (first : DOMRect) (rest : list DOMRect) (first_x : Z) :
  map_end_points (first :: rest) 0%nat first_x
  = map (fun rect =>
           x rect + width rect - x first + MIN_GAP_BETWEEN_SCREEN_AND_LAST_ICON)
        (first :: rest).
Proof.
  simpl. f_equal. apply map_end_points_later. discriminate.
Qed.

(** C4. The capture yields one offset per rendered element, in the order of
    the elements, and the offset of an element is its [x] plus its [width],
    less the [x] of the first element, plus the gap. *)
Theorem client_rects_end_point_aligned :
  forall (container : RefObject HTMLElement) (element : HTMLElement),
    current container = Some element ->
    length (client_rects_end_point container) = length (child_rects element)
    /\ forall (index : nat) (rect first : DOMRect),
         nth_error (child_rects element) 0 = Some first ->
         nth_error (child_rects element) index = Some rect ->
         nth_error (client_rects_end_point container) index
         = Some ((x rect + width rect) - x first
                 + MIN_GAP_BETWEEN_SCREEN_AND_LAST_ICON).
Proof.
  intros container element Hbound. unfold client_rects_end_point.
  rewrite Hbound. destruct (child_rects element) as [|head rest].
  - split; [reflexivity|]. intros index rect first Hfirst. discriminate.
  - rewrite map_end_points_first. split; [apply length_map|].
    intros index rect first [= <-] Hrect.
    rewrite nth_error_map, Hrect. reflexivity.
Qed.

(** C5. The cache is written only while it is empty: a capture on a
    populated cache changes nothing, so once a capture has left the cache
    non-empty, the next capture leaves it as it is. *)
Theorem capture_offsets_idempotent :
  (forall (container : RefObject HTMLElement) (x_coordinates : list Z),
      x_coordinates <> [] ->
      capture_offsets container x_coordinates = x_coordinates)
  /\ (forall (first second : RefObject HTMLElement) (x_coordinates : list Z),
         capture_offsets first x_coordinates <> [] ->
         capture_offsets second (capture_offsets first x_coordinates)
         = capture_offsets first x_coordinates).
Proof.
  assert (Hkeep : forall container x_coordinates,
             x_coordinates <> [] ->
             capture_offsets container x_coordinates = x_coordinates).
  { intros container [|offset rest] Hne; [contradiction|reflexivity]. }
  split; [exact Hkeep|].
  intros first second x_coordinates Hne. apply Hkeep. exact Hne.
Qed.

(** *** Validation and the order of events *)

Lemma final_validations_array env x_coordinates_ref :
  Array_isArray (fst (final_validations env x_coordinates_ref)) = true.
Proof.
  unfold final_validations.
  destruct x_coordinates_ref; reflexivity.
Qed.

Lemma render_cache_ready env c : cache_ready (render env c).
Proof.
  intros _. unfold render.
  pose proof (final_validations_array env (toolbar_options_x_coordinates_ref c)) as H.
  destruct (final_validations env (toolbar_options_x_coordinates_ref c)).
  exact H.
Qed.

Lemma step_cache_ready event c :
  cache_ready c -> exists c', step event c = Some c' /\ cache_ready c'.
Proof.
  intros Hready. destruct event as [env|env|env|env|]; simpl.
  - eexists. split; [reflexivity|]. apply render_cache_ready.
  - destruct (layout_effect_pending c) eqn:Hpending.
    + unfold cache_ready in Hready. rewrite Hpending in Hready.
      destruct (toolbar_options_x_coordinates_ref c) as [|x_coordinates].
      * discriminate Hready. auto.
      * eexists. split; [reflexivity|]. intros _. reflexivity.
    + eexists. split; [reflexivity|]. exact Hready.
  - destruct (effect_pending c) eqn:Hpending.
    + eexists. split; [reflexivity|]. intros _. simpl.
      apply Hready. auto.
    + eexists. split; [reflexivity|]. exact Hready.
  - destruct (resize_listener c) eqn:Hlistener.
    + unfold cache_ready in Hready. rewrite Hlistener in Hready.
      destruct (toolbar_options_x_coordinates_ref c) as [|x_coordinates].
      * discriminate Hready. auto.
      * eexists. split; [reflexivity|]. intros _. reflexivity.
    + eexists. split; [reflexivity|]. exact Hready.
  - eexists. split; [reflexivity|]. intros [H|[H|H]]; discriminate H.
Qed.

Lemma run_cache_ready events :
  forall c, cache_ready c -> exists c', run events c = Some c' /\ cache_ready c'.
Proof.
  induction events as [|event later IH]; intros c Hready; simpl.
  - exists c. auto.
  - destruct (step_cache_ready event c Hready) as (c1 & -> & Hready1).
    apply IH. exact Hready1.
Qed.

(** C8. A cache that is not an array is replaced by the empty array by the
    validations, which log the error; and since the validations run in the
    render, before any effect or listener of the component can run, no pass
    ever reads a cache that is not an array: from a component not yet
    rendered every sequence of events runs through, and whenever the resize
    listener is registered the cache holds an array. *)
Theorem validation_resets_cache_before_fit :
  (forall (env : Env),
      exists more,
        final_validations env NotAnArray
        = (IsArray [],
           console_error
             "Error: toolbar_options_x_coordinates_ref.current is not initialized as an array."
           :: more))
  /\ (forall (events : list Event) (c : Component),
         unmounted c ->
         exists c',
           run events c = Some c'
           /\ (resize_listener c' = true ->
               exists x_coordinates,
                 toolbar_options_x_coordinates_ref c' = IsArray x_coordinates)).
Proof.
  split.
  - intros env. unfold final_validations. simpl. eexists. reflexivity.
  - intros events c (Hlayout & Heffect & Hlistener).
    assert (Hready : cache_ready c).
    { intros [H|[H|H]]; congruence. }
    destruct (run_cache_ready events c Hready) as (c' & Hrun & Hready').
    exists c'. split; [exact Hrun|]. intros Hon.
    unfold cache_ready in Hready'.
    destruct (toolbar_options_x_coordinates_ref c') as [|x_coordinates].
    + discriminate Hready'. auto.
    + exists x_coordinates. reflexivity.
Qed.

(** ** Further properties of the component *)

(** *** The guard and the fit pass as the wrapper changes width *)

(** Narrowing the wrapper never clears the guard: an option with children
    that has reached the edge at some width has reached it at every smaller
    width. *)
Theorem is_child_reached_narrower :
  forall (options : list BulkActionOptionProps) (x_coordinates : list Z)
         (narrow wide : Z),
    narrow <= wide ->
    is_child_reached options x_coordinates wide = true ->
    is_child_reached options x_coordinates narrow = true.
Proof.
  intros options x_coordinates narrow wide Hle Hwide.
  apply some_true in Hwide as (index & option & Hnth & Hc).
  apply child_reached_at_true in Hc as (Hch & offset & Hoff & Hge).
  apply some_true. exists index, option. split; [exact Hnth|].
  apply child_reached_at_true. split; [exact Hch|].
  exists offset. split; [exact Hoff|lia].
Qed.

Lemma is_child_reached_wider options x_coordinates narrow wide :
  narrow <= wide ->
  is_child_reached options x_coordinates narrow = false ->
  is_child_reached options x_coordinates wide = false.
Proof.
  intros Hle Hnarrow.
  destruct (is_child_reached options x_coordinates wide) eqn:Hwide; [|reflexivity].
  rewrite <- Hnarrow. symmetry.
  apply some_true in Hwide as (index & option & Hnth & Hc).
  apply child_reached_at_true in Hc as (Hch & offset & Hoff & Hge).
  apply some_true. exists index, option. split; [exact Hnth|].
  apply child_reached_at_true. split; [exact Hch|].
  exists offset. split; [exact Hoff|lia].
Qed.

Lemma display_options_count_monotone x_coordinates narrow wide :
  narrow <= wide ->
  (display_options_count x_coordinates narrow
   <= display_options_count x_coordinates wide)%nat.
Proof.
  intros Hle. unfold display_options_count.
  induction x_coordinates as [|offset rest IH]; simpl; [lia|].
  destruct (Z.leb_spec offset (narrow - MIN_GAP_BETWEEN_SCREEN_AND_LAST_ICON));
    destruct (Z.leb_spec offset (wide - MIN_GAP_BETWEEN_SCREEN_AND_LAST_ICON));
    simpl; lia.
Qed.

Lemma firstn_min_prefix {A : Type} (l : list A) (n m : nat) :
  (n <= m)%nat ->
  firstn n l = firstn (length (firstn n l)) (firstn m l).
Proof.
  intros Hle. rewrite length_firstn, firstn_firstn.
  destruct (Nat.le_ge_cases n (length l)) as [Hshort|Hlong].
  - f_equal. lia.
  - rewrite !firstn_all2 by lia. reflexivity.
Qed.

(** A pass at a width where no option with children overflows publishes,
    and so does a pass at any larger width; what the narrower pass publishes
    is a prefix of what the wider one publishes.  Widening the wrapper never
    hides an option. *)
Theorem fit_options_monotone :
  forall (options : list BulkActionOptionProps) (x_coordinates : list Z)
         (narrow wide : Z),
    narrow <= wide ->
    is_child_reached options x_coordinates narrow = false ->
    exists shown_narrow shown_wide,
      fit_options options x_coordinates narrow = Some shown_narrow
      /\ fit_options options x_coordinates wide = Some shown_wide
      /\ shown_narrow = firstn (length shown_narrow) shown_wide
      /\ (length shown_narrow <= length shown_wide)%nat.
Proof.
  intros options x_coordinates narrow wide Hle Hnarrow.
  pose proof (is_child_reached_wider _ _ _ _ Hle Hnarrow) as Hwide.
  rewrite (fit_options_prefix _ _ _ Hnarrow), (fit_options_prefix _ _ _ Hwide).
  pose proof (display_options_count_monotone x_coordinates _ _ Hle) as Hcount.
  eexists. eexists. split; [reflexivity|]. split; [reflexivity|].
  split.
  - apply firstn_min_prefix. lia.
  - rewrite !length_firstn. lia.
Qed.

(** A pass never publishes more options than the cache has offsets; while
    the cache is still empty, a pass publishes the empty subset whatever the
    options and the width are. *)
Theorem update_display_bounded_by_cache :
  (forall (env : Env),
      update_display_options_on_window_resize env [] = Some [])
  /\ (forall (env : Env) (x_coordinates : list Z) selected_options,
         update_display_options_on_window_resize env x_coordinates
         = Some selected_options ->
         (length selected_options <= length x_coordinates)%nat).
Proof.
  assert (Hbound : forall env x_coordinates selected_options,
             update_display_options_on_window_resize env x_coordinates
             = Some selected_options ->
             (length selected_options <= length x_coordinates)%nat).
  { intros env x_coordinates selected_options.
    unfold update_display_options_on_window_resize.
    destruct (is_child_reached (options env) x_coordinates
                (measure_wrapper_width env)) eqn:Hguard.
    - unfold fit_options. rewrite Hguard. discriminate.
    - rewrite (fit_options_prefix _ _ _ Hguard). intros [= <-].
      rewrite length_firstn.
      pose proof (filter_length_le
                    (fun x_end_point =>
                       x_end_point <=? measure_wrapper_width env
                                       - MIN_GAP_BETWEEN_SCREEN_AND_LAST_ICON)
                    x_coordinates) as Hfilter.
      unfold display_options_count. lia. }
  split; [|exact Hbound].
  intros env.
  destruct (update_display_options_on_window_resize env []) as [selected|] eqn:Hpass.
  - apply Hbound in Hpass. destruct selected; [reflexivity|simpl in Hpass; lia].
  - unfold update_display_options_on_window_resize, fit_options in Hpass.
    destruct (is_child_reached (options env) [] (measure_wrapper_width env)) eqn:Hguard;
      [|discriminate].
    apply some_true in Hguard as (index & option & _ & Hc).
    apply child_reached_at_true in Hc as (_ & offset & Hoff & _).
    destruct index; discriminate.
Qed.

(** When no option has children the guard is false for every cache and
    every width, so every pass publishes. *)
Theorem childless_options_always_publish :
  forall (options : list BulkActionOptionProps),
    (forall option, In option options -> children option = None) ->
    forall (x_coordinates : list Z) (wrapper_width : Z),
      is_child_reached options x_coordinates wrapper_width = false
      /\ exists selected_options,
           fit_options options x_coordinates wrapper_width = Some selected_options.
Proof.
  intros options Hchildless x_coordinates wrapper_width.
  assert (Hguard : is_child_reached options x_coordinates wrapper_width = false).
  { destruct (is_child_reached options x_coordinates wrapper_width) eqn:Hreached;
      [|reflexivity].
    apply some_true in Hreached as (index & option & Hnth & Hc).
    apply child_reached_at_true in Hc as (Hch & _).
    apply has_children_true in Hch.
    elim Hch. apply Hchildless. eapply nth_error_In. exact Hnth. }
  split; [exact Hguard|].
  rewrite (fit_options_prefix _ _ _ Hguard). eexists. reflexivity.
Qed.

(** A wrapper wide enough shows everything: when every cached offset is
    below the width less the gap, the cache has an offset for every option
    and the maximum allows them all, the pass publishes the options as they
    are. *)
Theorem update_display_shows_all_when_wide :
  forall (env : Env) (x_coordinates : list Z),
    (forall offset,
        In offset x_coordinates ->
        offset < measure_wrapper_width env - MIN_GAP_BETWEEN_SCREEN_AND_LAST_ICON) ->
    (length (options env) <= length x_coordinates)%nat ->
    Z.of_nat (length (options env)) <= MAX_OPTIONS_TO_DISPLAY ->
    update_display_options_on_window_resize env x_coordinates = Some (options env).
Proof.
  intros env x_coordinates Hfit Hcached Hmax.
  assert (Hguard : is_child_reached (options env) x_coordinates
                     (measure_wrapper_width env) = false).
  { destruct (is_child_reached _ _ _) eqn:Hreached; [|reflexivity].
    apply some_true in Hreached as (index & option & _ & Hc).
    apply child_reached_at_true in Hc as (_ & offset & Hoff & Hge).
    apply nth_error_In in Hoff. apply Hfit in Hoff. lia. }
  unfold update_display_options_on_window_resize.
  rewrite (fit_options_prefix _ _ _ Hguard). f_equal.
  assert (Hcount : display_options_count x_coordinates (measure_wrapper_width env)
                   = length x_coordinates).
  { unfold display_options_count. f_equal.
    apply forallb_filter_id. apply forallb_forall.
    intros offset Hin. apply Z.leb_le. apply Hfit in Hin. lia. }
  rewrite Hcount. apply firstn_all2. unfold loop_bound. lia.
Qed.

(** *** Sorted offsets *)

Lemma filter_none_above (threshold : Z) (l : list Z) (a : Z) :
  threshold < a -> Forall (Z.le a) l ->
  filter (fun offset => offset <=? threshold) l = [].
Proof.
  intros Habove Hall. induction Hall as [|b l Hb _ IH]; simpl; [reflexivity|].
  destruct (Z.leb_spec b threshold); [lia|exact IH].
Qed.

(** In a sorted cache the offsets that fit are its first ones. *)
Lemma filter_sorted_prefix (threshold : Z) (l : list Z) :
  StronglySorted Z.le l ->
  let fitting := filter (fun offset => offset <=? threshold) l in
  fitting = firstn (length fitting) l
  /\ forall offset, nth_error l (length fitting) = Some offset -> threshold < offset.
Proof.
  intros Hsorted. induction Hsorted as [|a l Hsorted IH Hall]; simpl.
  - split; [reflexivity|]. discriminate.
  - destruct (Z.leb_spec a threshold) as [Hfit|Habove]; simpl.
    + destruct IH as [IHprefix IHnext]. split; [f_equal; exact IHprefix|exact IHnext].
    + rewrite (filter_none_above threshold l a Habove Hall). simpl.
      split; [reflexivity|]. intros offset [= <-]. exact Habove.
Qed.

(** With a sorted cache a pass publishes exactly the options that fit: each
    published option has, at its own index, an offset that is at most the
    width less the gap, and when neither the maximum nor the number of
    options stopped the loop, the next cached offset is beyond it. *)
Theorem update_display_fits_when_sorted :
  forall (env : Env) (x_coordinates : list Z),
    StronglySorted Z.le x_coordinates ->
    is_child_reached (options env) x_coordinates (measure_wrapper_width env) = false ->
    exists selected_options,
      update_display_options_on_window_resize env x_coordinates = Some selected_options
      /\ (forall index,
             (index < length selected_options)%nat ->
             exists offset,
               nth_error x_coordinates index = Some offset
               /\ offset <= measure_wrapper_width env
                            - MIN_GAP_BETWEEN_SCREEN_AND_LAST_ICON)
      /\ (forall offset,
             (length selected_options < length (options env))%nat ->
             Z.of_nat (length selected_options) < MAX_OPTIONS_TO_DISPLAY ->
             nth_error x_coordinates (length selected_options) = Some offset ->
             measure_wrapper_width env - MIN_GAP_BETWEEN_SCREEN_AND_LAST_ICON < offset).
Proof.
  intros env x_coordinates Hsorted Hguard.
  unfold update_display_options_on_window_resize.
  rewrite (fit_options_prefix _ _ _ Hguard).
  eexists. split; [reflexivity|].
  destruct (filter_sorted_prefix
              (measure_wrapper_width env - MIN_GAP_BETWEEN_SCREEN_AND_LAST_ICON)
              x_coordinates Hsorted) as [Hprefix Hnext].
  fold (display_options_count x_coordinates (measure_wrapper_width env)) in Hprefix, Hnext.
  set (count := display_options_count x_coordinates (measure_wrapper_width env)) in *.
  rewrite length_firstn. unfold loop_bound. split.
  - intros index Hindex.
    assert (Hcount : (index < count)%nat) by lia.
    destruct (nth_error (firstn count x_coordinates) index) as [offset|] eqn:Hnth.
    + exists offset. split.
      * rewrite nth_error_firstn in Hnth.
        destruct (Nat.ltb_spec index count); [exact Hnth|lia].
      * rewrite <- Hprefix in Hnth. apply nth_error_In in Hnth.
        apply filter_In in Hnth as [_ Hle]. apply Z.leb_le. exact Hle.
    + apply nth_error_None in Hnth. rewrite <- Hprefix in Hnth.
      unfold count, display_options_count in Hcount. lia.
  - intros offset Hoptions Hmax Hnth. apply Hnext.
    replace count
      with (Nat.min (Nat.min count
                       (Nat.min (Z.to_nat MAX_OPTIONS_TO_DISPLAY) (length (options env))))
                    (length (options env))) by lia.
    exact Hnth.
Qed.

(** *** Geometry capture *)

Lemma client_rects_end_point_map clientWidth0 (first : DOMRect) (rest : list DOMRect) :
  client_rects_end_point (mkRef (Some (mkElement clientWidth0 (first :: rest))))
  = map (fun rect =>
           x rect + width rect - x first + MIN_GAP_BETWEEN_SCREEN_AND_LAST_ICON)
        (first :: rest).
Proof. unfold client_rects_end_point. cbn [current child_rects]. apply map_end_points_first. Qed.

Lemma end_points_locally_sorted (first_x : Z) (rects : list DOMRect) :
  left_to_right rects = true ->
  Sorted Z.le
    (map (fun rect =>
            x rect + width rect - first_x + MIN_GAP_BETWEEN_SCREEN_AND_LAST_ICON)
         rects).
Proof.
  induction rects as [|rect rest IH]; intros Hlayout; simpl; [constructor|].
  simpl in Hlayout. apply andb_prop in Hlayout as [Hhead Hrest].
  apply andb_prop in Hhead as [_ Hnext].
  constructor; [apply IH; exact Hrest|].
  destruct rest as [|next rest']; simpl; constructor.
  simpl in Hrest. apply andb_prop in Hrest as [Hnext_width _].
  apply andb_prop in Hnext_width as [Hnext_width _].
  apply Z.leb_le in Hnext, Hnext_width. lia.
Qed.

(** Elements that follow one another from left to right, none of negative
    width, are captured as a sorted sequence of offsets. *)
Theorem client_rects_end_point_sorted :
  forall (element : HTMLElement),
    left_to_right (child_rects element) = true ->
    StronglySorted Z.le (client_rects_end_point (mkRef (Some element))).
Proof.
  intros [clientWidth0 rects] Hlayout. cbn [child_rects] in Hlayout.
  destruct rects as [|first rest]; [constructor|].
  rewrite client_rects_end_point_map.
  apply Sorted_StronglySorted; [exact Z.le_trans|].
  apply end_points_locally_sorted. exact Hlayout.
Qed.

(** *** Validation *)

Lemma app_nil_iff {A : Type} (l l' : list A) : l ++ l' = [] <-> l = [] /\ l' = [].
Proof.
  split; [apply app_eq_nil|]. intros [-> ->]. reflexivity.
Qed.

Lemma logged_iff (condition : bool) (entry : LogEntry) :
  (if condition then [entry] else []) = [] <-> condition = false.
Proof. destruct condition; split; congruence. Qed.

(** The validations are silent exactly on a well-formed configuration: they
    log nothing if and only if the cache is an array, the maximum is
    positive, there is at least one option, and both [wrapper_ref] and
    [toolbar_options_ref] hold an element.  A cache that is an array is left
    as it is. *)
Theorem final_validations_silent_iff :
  forall (env : Env) (x_coordinates_ref : RefValue),
    (snd (final_validations env x_coordinates_ref) = [] <->
     Array_isArray x_coordinates_ref = true
     /\ 0 < MAX_OPTIONS_TO_DISPLAY
     /\ options env <> []
     /\ optional_current (wrapper_ref env) <> None
     /\ current (toolbar_options_ref env) <> None)
    /\ (forall x_coordinates,
          x_coordinates_ref = IsArray x_coordinates ->
          fst (final_validations env x_coordinates_ref) = IsArray x_coordinates).
Proof.
  intros env x_coordinates_ref. split.
  - assert (Hbound : forall (A : Type) (element : option A),
               negb (is_bound element) = false <-> element <> None)
      by (intros A [element|]; simpl; split; congruence).
    destruct x_coordinates_ref as [|x_coordinates]; unfold final_validations;
      cbn [Array_isArray negb snd app].
    + split; [discriminate|]. intros (Harray & _). discriminate Harray.
    + rewrite !app_nil_iff, !logged_iff, !Hbound.
      rewrite Z.leb_gt, Nat.eqb_neq, length_zero_iff_nil. tauto.
  - intros x_coordinates ->. reflexivity.
Qed.

(** *** The component over time *)

Lemma render_fields env c :
  options_to_be_visible (render env c) = options_to_be_visible c
  /\ resize_listener (render env c) = resize_listener c
  /\ toolbar_options_x_coordinates_ref (render env c)
     = fst (final_validations env (toolbar_options_x_coordinates_ref c))
  /\ console (render env c)
     = console c ++ snd (final_validations env (toolbar_options_x_coordinates_ref c)).
Proof.
  unfold render.
  destruct (final_validations env (toolbar_options_x_coordinates_ref c)).
  repeat split.
Qed.

(** Once populated, the cache is never written again: through any sequence
    of renders, effects, resizes and teardowns a non-empty cache keeps its
    content, whatever is rendered later. *)
Theorem populated_cache_is_kept :
  forall (events : list Event) (c : Component) (x_coordinates : list Z),
    toolbar_options_x_coordinates_ref c = IsArray x_coordinates ->
    x_coordinates <> [] ->
    exists c',
      run events c = Some c'
      /\ toolbar_options_x_coordinates_ref c' = IsArray x_coordinates.
Proof.
  induction events as [|event later IH]; intros c x_coordinates Hcache Hne; simpl.
  - exists c. auto.
  - assert (Hstep : exists c1, step event c = Some c1
                               /\ toolbar_options_x_coordinates_ref c1
                                  = IsArray x_coordinates).
    { destruct event as [env|env|env|env|]; simpl.
      - eexists. split; [reflexivity|].
        destruct (render_fields env c) as (_ & _ & -> & _).
        rewrite Hcache. reflexivity.
      - destruct (layout_effect_pending c); [|eauto].
        rewrite Hcache. eexists. split; [reflexivity|]. simpl.
        destruct x_coordinates; [contradiction|reflexivity].
      - destruct (effect_pending c); eauto.
      - destruct (resize_listener c); [|eauto].
        rewrite Hcache. eauto.
      - eauto. }
    destruct Hstep as (c1 & -> & Hcache1). apply IH; assumption.
Qed.

(** Once the cache holds an array, the error about the cache is never
    logged again: through any sequence of events the console only grows, and
    none of the new lines is that error. *)
Theorem array_error_not_repeated :
  forall (events : list Event) (c : Component) (x_coordinates : list Z),
    toolbar_options_x_coordinates_ref c = IsArray x_coordinates ->
    exists c' logged,
      run events c = Some c'
      /\ console c' = console c ++ logged
      /\ ~ In (console_error
                 "Error: toolbar_options_x_coordinates_ref.current is not initialized as an array.")
              logged.
Proof.
  induction events as [|event later IH]; intros c x_coordinates Hcache; simpl.
  - exists c, []. rewrite app_nil_r. auto.
  - assert (Hstep : exists c1 logged1 x_coordinates1,
               step event c = Some c1
               /\ toolbar_options_x_coordinates_ref c1 = IsArray x_coordinates1
               /\ console c1 = console c ++ logged1
               /\ ~ In (console_error
                          "Error: toolbar_options_x_coordinates_ref.current is not initialized as an array.")
                       logged1).
    { destruct event as [env|env|env|env|]; simpl.
      - exists (render env c),
          (snd (final_validations env (toolbar_options_x_coordinates_ref c))),
          x_coordinates.
        destruct (render_fields env c) as (_ & _ & Href & Hconsole).
        rewrite Href, Hconsole, Hcache.
        repeat split. unfold final_validations. simpl.
        rewrite !in_app_iff.
        destruct (MAX_OPTIONS_TO_DISPLAY <=? 0), (length (options env) =? 0)%nat,
          (is_bound (optional_current (wrapper_ref env))),
          (is_bound (current (toolbar_options_ref env)));
          simpl; intuition discriminate.
      - destruct (layout_effect_pending c).
        + rewrite Hcache. eexists. exists []. eexists.
          split; [reflexivity|]. simpl. rewrite app_nil_r. auto.
        + exists c, [], x_coordinates. rewrite app_nil_r. auto.
      - destruct (effect_pending c).
        + eexists. exists [], x_coordinates.
          split; [reflexivity|]. simpl. rewrite app_nil_r. auto.
        + exists c, [], x_coordinates. rewrite app_nil_r. auto.
      - destruct (resize_listener c).
        + rewrite Hcache. eexists. exists [], x_coordinates.
          split; [reflexivity|]. simpl. rewrite app_nil_r. auto.
        + exists c, [], x_coordinates. rewrite app_nil_r. auto.
      - eexists. exists [], x_coordinates.
        split; [reflexivity|]. simpl. rewrite app_nil_r. auto. }
    destruct Hstep as (c1 & logged1 & x_coordinates1 & -> & Hcache1 & Hconsole1 & Hnot1).
    destruct (IH c1 x_coordinates1 Hcache1) as (c' & logged & Hrun & Hconsole & Hnot).
    exists c', (logged1 ++ logged). split; [exact Hrun|]. split.
    + rewrite Hconsole, Hconsole1, app_assoc. reflexivity.
    + rewrite in_app_iff. tauto.
Qed.

(** The listener is bound only when [toolbar_wrapper_ref] holds an element:
    in a component where no effect ever finds one, resize events publish
    nothing and the visible options stay as they were. *)
Theorem unbound_wrapper_never_publishes :
  forall (events : list Event) (c : Component),
    unmounted c ->
    (forall env, In (Effect env) events ->
                 optional_current (toolbar_wrapper_ref env) = None) ->
    exists c',
      run events c = Some c'
      /\ resize_listener c' = false
      /\ options_to_be_visible c' = options_to_be_visible c.
Proof.
  intros events c (Hlayout & Heffect & Hlistener).
  assert (Hready : cache_ready c) by (intros [H|[H|H]]; congruence).
  clear Hlayout Heffect. revert c Hlistener Hready.
  induction events as [|event later IH]; intros c Hlistener Hready Hunbound; simpl.
  - exists c. auto.
  - assert (Hstep : exists c1, step event c = Some c1
                               /\ resize_listener c1 = false
                               /\ cache_ready c1
                               /\ options_to_be_visible c1 = options_to_be_visible c).
    { destruct event as [env|env|env|env|]; simpl.
      - exists (render env c). destruct (render_fields env c) as (Hv & Hl & _ & _).
        rewrite Hv, Hl. repeat split; auto. apply render_cache_ready.
      - destruct (layout_effect_pending c) eqn:Hpending; [|eauto 6].
        unfold cache_ready in Hready. rewrite Hpending in Hready.
        destruct (toolbar_options_x_coordinates_ref c).
        + discriminate Hready. auto.
        + eexists. split; [reflexivity|]. simpl. repeat split; auto.
      - destruct (effect_pending c) eqn:Hpending; [|eauto 6].
        eexists. split; [reflexivity|]. simpl.
        rewrite (Hunbound env) by (left; reflexivity).
        repeat split; auto. intros _. simpl. apply Hready. auto.
      - rewrite Hlistener. eauto 6.
      - eexists. split; [reflexivity|]. simpl. repeat split; auto.
        intros [H|[H|H]]; discriminate H. }
    destruct Hstep as (c1 & -> & Hlistener1 & Hready1 & Hvisible1).
    destruct (IH c1 Hlistener1 Hready1) as (c' & Hrun & Hl' & Hv').
    { intros env Hin. apply Hunbound. right. exact Hin. }
    exists c'. rewrite Hv', Hvisible1. auto.
Qed.

(** The teardown removes the listener and drops the effects not yet run:
    after it, whatever resize or effect events still arrive, the component
    stays as the teardown left it until it is rendered again. *)
Theorem nothing_runs_after_unmount :
  forall (events : list Event) (c : Component),
    forallb (fun event => negb (is_render event)) events = true ->
    run (Unmount :: events) c = step Unmount c
    /\ exists c', step Unmount c = Some c' /\ unmounted c'.
Proof.
  intros events c Hno_render.
  assert (Hidle : forall c0, unmounted c0 -> run events c0 = Some c0).
  { induction events as [|event later IH]; intros c0 Hidle; simpl; [reflexivity|].
    simpl in Hno_render. apply andb_prop in Hno_render as [Hevent Hlater].
    destruct Hidle as (Hlayout & Heffect & Hlistener).
    assert (Hstep : step event c0 = Some c0).
    { destruct event as [env|env|env|env|]; simpl.
      - discriminate Hevent.
      - rewrite Hlayout. reflexivity.
      - rewrite Heffect. reflexivity.
      - rewrite Hlistener. reflexivity.
      - destruct c0; simpl in *; subst; reflexivity. }
    rewrite Hstep. apply IH; [exact Hlater|repeat split; assumption]. }
  split.
  - change (run (Unmount :: events) c)
      with (match step Unmount c with Some c' => run events c' | None => None end).
    simpl. apply Hidle. repeat split.
  - eexists. split; [reflexivity|]. repeat split.
Qed.

(** A resize event repeated with the same measurements changes nothing the
    second time. *)
Theorem resize_is_idempotent :
  forall (env : Env) (c c' : Component),
    step (Resize env) c = Some c' ->
    step (Resize env) c' = Some c'.
Proof.
  intros env c c'. simpl.
  destruct (resize_listener c) eqn:Hlistener.
  - destruct (toolbar_options_x_coordinates_ref c) as [|x_coordinates];
      [discriminate|].
    intros [= <-]. simpl. do 2 f_equal.
    destruct (update_display_options_on_window_resize env x_coordinates);
      reflexivity.
  - intros [= <-]. rewrite Hlistener. reflexivity.
Qed.

End Component.

(** ** The properties at sample inputs

    The gap is 10 throughout; the offsets and widths are those of a toolbar
    of five options. *)

Lemma is_child_reached_iff_witness :
  (children (plain_option "a") = None
   /\ child_reached_at 10 five_offsets 205 (plain_option "a") 0 = false)
  /\ is_child_reached 10 five_options_with_parent five_offsets 205 = true.
Proof.
  destruct (is_child_reached_iff 10 five_options_with_parent five_offsets 205)
    as [Hiff Hplain].
  split.
  - split; [reflexivity|]. apply Hplain. reflexivity.
  - apply Hiff. exists 2%nat, (parent_option "c"), 200.
    repeat split; try reflexivity; discriminate.
Defined.

Lemma is_child_reached_absent_entry_witness :
  nth_error [50; 120] 2 = None
  /\ child_reached_at 10 [50; 120] 205 (parent_option "c") 2 = false.
Proof.
  split; [reflexivity|].
  apply (proj2 (is_child_reached_absent_entry 10)). reflexivity.
Defined.


Lemma update_display_retains_on_child_overflow_witness :
  let env := env_of_width five_options_with_parent 205 in
  nth_error (options env) 2 = Some (parent_option "c")
  /\ children (parent_option "c") <> None
  /\ nth_error five_offsets 2 = Some 200
  /\ 200 >= measure_wrapper_width env - 10
  /\ update_display_options_on_window_resize 10 3 env five_offsets = None
  /\ forall previously_visible,
       publish (update_display_options_on_window_resize 10 3 env five_offsets)
               previously_visible
       = previously_visible.
Proof.
  cbv zeta.
  assert (Hmarker : children (parent_option "c") <> None) by discriminate.
  assert (Hoffset : 200 >= measure_wrapper_width
                             (env_of_width five_options_with_parent 205) - 10)
    by (vm_compute; discriminate).
  split; [reflexivity|]. split; [exact Hmarker|].
  split; [reflexivity|]. split; [exact Hoffset|].
  apply (update_display_retains_on_child_overflow 10 3
           (env_of_width five_options_with_parent 205) five_offsets
           2%nat (parent_option "c") 200).
  - reflexivity.
  - exact Hmarker.
  - reflexivity.
  - exact Hoffset.
Defined.

Lemma client_rects_end_point_aligned_witness :
  let container := rendered_container five_rects in
  current container = Some (mkElement 600 five_rects)
  /\ length (client_rects_end_point 10 container) = length five_rects
  /\ nth_error five_rects 0 = Some (mkRect 8 40)
  /\ nth_error five_rects 3 = Some (mkRect 206 92)
  /\ nth_error (client_rects_end_point 10 container) 3
     = Some ((206 + 92) - 8 + 10).
Proof.
  cbv zeta.
  pose proof (client_rects_end_point_aligned 10 (rendered_container five_rects)
                (mkElement 600 five_rects) eq_refl) as [Hlength Hoffsets].
  split; [reflexivity|]. split; [exact Hlength|].
  split; [reflexivity|]. split; [reflexivity|].
  apply (Hoffsets 3%nat (mkRect 206 92) (mkRect 8 40)); reflexivity.
Defined.

Lemma capture_offsets_idempotent_witness :
  let first := rendered_container five_rects in
  capture_offsets 10 first [] <> []
  /\ capture_offsets 10 unbound_container (capture_offsets 10 first [])
     = capture_offsets 10 first [].
Proof.
  cbv zeta.
  assert (Hcaptured : capture_offsets 10 (rendered_container five_rects) [] <> [])
    by (vm_compute; discriminate).
  split; [exact Hcaptured|].
  apply (proj2 (capture_offsets_idempotent 10)). exact Hcaptured.
Defined.

(** C7 as stated fails when an option with children overflows: with a
    maximum of -2, children on the option at index 2 and a wrapper 205 wide,
    the pass returns before [set_options_to_be_visible], and the five
    options visible before stay visible. *)
Lemma non_positive_max_retains_counterexample :
  let env := env_of_width five_options_with_parent 205 in
  -2 <= 0
  /\ update_display_options_on_window_resize 10 (-2) env five_offsets = None
  /\ publish (update_display_options_on_window_resize 10 (-2) env five_offsets)
             five_options_with_parent
     = five_options_with_parent
  /\ ~ (forall (x_coordinates : list Z) (previously_visible : list BulkActionOptionProps),
          length (publish
                    (update_display_options_on_window_resize 10 (-2) env x_coordinates)
                    previously_visible)
          = 0%nat).
Proof.
  cbv zeta. split; [vm_compute; discriminate|].
  split; [reflexivity|]. split; [reflexivity|].
  intros Hcapped.
  specialize (Hcapped five_offsets five_options_with_parent).
  vm_compute in Hcapped. discriminate Hcapped.
Qed.

Lemma non_positive_max_caps_at_zero_witness :
  let env := env_of_width five_options 250 in
  -2 <= 0
  /\ is_child_reached 10 (options env) five_offsets (measure_wrapper_width env) = false
  /\ In (console_warn
           "Warning: MAX_OPTIONS_TO_DISPLAY should be greater than 0. Current value:"
           [-2])
        (snd (final_validations (-2) env (IsArray five_offsets)))
  /\ update_display_options_on_window_resize 10 (-2) env five_offsets = Some []
  /\ length (publish (update_display_options_on_window_resize 10 (-2) env five_offsets)
                     five_options)
     = 0%nat.
Proof.
  cbv zeta.
  assert (Hmax : -2 <= 0) by (vm_compute; discriminate).
  destruct (non_positive_max_caps_at_zero 10 (-2) Hmax) as (Hwarn & Hcap).
  destruct (Hcap (env_of_width five_options 250) five_offsets eq_refl)
    as (Hpass & Hlength).
  split; [exact Hmax|]. split; [reflexivity|]. split; [apply Hwarn|].
  split; [exact Hpass|]. apply Hlength.
Defined.

Lemma validation_resets_cache_before_fit_witness :
  unmounted fresh_component
  /\ exists c',
       run 10 3 mount_then_resize fresh_component = Some c'
       /\ (resize_listener c' = true ->
           exists x_coordinates,
             toolbar_options_x_coordinates_ref c' = IsArray x_coordinates).
Proof.
  assert (Hfresh : unmounted fresh_component)
    by (repeat split; reflexivity).
  split; [exact Hfresh|].
  apply (proj2 (validation_resets_cache_before_fit 10 3) mount_then_resize
           fresh_component Hfresh).
Defined.

Lemma update_display_width_source_witness :
  (optional_current (wrapper_ref (env_of_width five_options 250))
   = Some (mkElement 250 [])
   /\ update_display_options_on_window_resize 10 3
        (env_of_width five_options 250) five_offsets
      = fit_options 10 3 five_options five_offsets 250)
  /\ (optional_current (wrapper_ref (env_without_wrapper five_options)) = None
      /\ update_display_options_on_window_resize 10 3
           (env_without_wrapper five_options) five_offsets
         = fit_options 10 3 five_options five_offsets 1024).
Proof.
  split.
  - split; [reflexivity|].
    apply (proj1 (update_display_width_source 10 3)
             (env_of_width five_options 250) (mkElement 250 []) five_offsets).
    reflexivity.
  - split; [reflexivity|].
    apply (proj2 (update_display_width_source 10 3)
             (env_without_wrapper five_options) five_offsets).
    reflexivity.
Defined.

Lemma no_options_publishes_empty_witness :
  options (env_of_width [] 250) = []
  /\ update_display_options_on_window_resize 10 3 (env_of_width [] 250) five_offsets
     = Some []
  /\ publish
       (update_display_options_on_window_resize 10 3 (env_of_width [] 250) five_offsets)
       five_options
     = [].
Proof.
  destruct (proj2 (no_options_publishes_empty 10 3) (env_of_width [] 250)
              five_offsets eq_refl) as [Hpass Hpublish].
  split; [reflexivity|]. split; [exact Hpass|]. apply Hpublish.
Defined.

(** ** The further properties at sample inputs *)

Lemma is_child_reached_narrower_witness :
  150 <= 205
  /\ is_child_reached 10 five_options_with_parent five_offsets 205 = true
  /\ is_child_reached 10 five_options_with_parent five_offsets 150 = true.
Proof.
  assert (Hle : 150 <= 205) by (vm_compute; discriminate).
  split; [exact Hle|]. split; [reflexivity|].
  apply (is_child_reached_narrower 10 five_options_with_parent five_offsets
           150 205 Hle).
  reflexivity.
Defined.

Lemma fit_options_monotone_witness :
  140 <= 250
  /\ is_child_reached 10 five_options five_offsets 140 = false
  /\ exists shown_narrow shown_wide,
       fit_options 10 3 five_options five_offsets 140 = Some shown_narrow
       /\ fit_options 10 3 five_options five_offsets 250 = Some shown_wide
       /\ shown_narrow = firstn (length shown_narrow) shown_wide
       /\ (length shown_narrow <= length shown_wide)%nat.
Proof.
  assert (Hle : 140 <= 250) by (vm_compute; discriminate).
  split; [exact Hle|]. split; [reflexivity|].
  apply (fit_options_monotone 10 3 five_options five_offsets 140 250 Hle).
  reflexivity.
Defined.

Lemma update_display_bounded_by_cache_witness :
  update_display_options_on_window_resize 10 3 (env_of_width five_options 250)
    five_offsets
  = Some (firstn 3 five_options)
  /\ (length (firstn 3 five_options) <= length five_offsets)%nat.
Proof.
  split; [reflexivity|].
  apply (proj2 (update_display_bounded_by_cache 10 3)
           (env_of_width five_options 250) five_offsets (firstn 3 five_options)).
  reflexivity.
Defined.

Lemma childless_options_always_publish_witness :
  (forall option, In option five_options -> children option = None)
  /\ is_child_reached 10 five_options five_offsets 60 = false
  /\ exists selected_options,
       fit_options 10 3 five_options five_offsets 60 = Some selected_options.
Proof.
  assert (Hchildless : forall option, In option five_options -> children option = None).
  { intros option Hin. simpl in Hin.
    repeat (destruct Hin as [<-|Hin]; [reflexivity|]). contradiction. }
  split; [exact Hchildless|].
  apply (childless_options_always_publish 10 3 five_options Hchildless
           five_offsets 60).
Defined.

Lemma update_display_shows_all_when_wide_witness :
  let env := env_of_width five_options 500 in
  (forall offset, In offset five_offsets -> offset < measure_wrapper_width env - 10)
  /\ (length (options env) <= length five_offsets)%nat
  /\ Z.of_nat (length (options env)) <= 5
  /\ update_display_options_on_window_resize 10 5 env five_offsets
     = Some (options env).
Proof.
  cbv zeta.
  assert (Hfit : forall offset,
             In offset five_offsets ->
             offset < measure_wrapper_width (env_of_width five_options 500) - 10).
  { intros offset Hin. simpl in Hin.
    repeat (destruct Hin as [<-|Hin]; [reflexivity|]). contradiction. }
  assert (Hcached : (length (options (env_of_width five_options 500))
                     <= length five_offsets)%nat) by (simpl; lia).
  assert (Hmax : Z.of_nat (length (options (env_of_width five_options 500))) <= 5)
    by (vm_compute; discriminate).
  split; [exact Hfit|]. split; [exact Hcached|]. split; [exact Hmax|].
  apply (update_display_shows_all_when_wide 10 5 (env_of_width five_options 500)
           five_offsets Hfit Hcached Hmax).
Defined.

Lemma update_display_fits_when_sorted_witness :
  let env := env_of_width five_options 250 in
  StronglySorted Z.le five_offsets
  /\ is_child_reached 10 (options env) five_offsets (measure_wrapper_width env) = false
  /\ exists selected_options,
       update_display_options_on_window_resize 10 5 env five_offsets
       = Some selected_options
       /\ (forall index,
              (index < length selected_options)%nat ->
              exists offset,
                nth_error five_offsets index = Some offset
                /\ offset <= measure_wrapper_width env - 10)
       /\ (forall offset,
              (length selected_options < length (options env))%nat ->
              Z.of_nat (length selected_options) < 5 ->
              nth_error five_offsets (length selected_options) = Some offset ->
              measure_wrapper_width env - 10 < offset).
Proof.
  cbv zeta.
  assert (Hsorted : StronglySorted Z.le five_offsets).
  { unfold five_offsets. repeat constructor; lia. }
  split; [exact Hsorted|]. split; [reflexivity|].
  apply (update_display_fits_when_sorted 10 5 (env_of_width five_options 250)
           five_offsets Hsorted).
  reflexivity.
Defined.

Lemma client_rects_end_point_sorted_witness :
  left_to_right (child_rects (mkElement 600 five_rects)) = true
  /\ StronglySorted Z.le
       (client_rects_end_point 10 (mkRef (Some (mkElement 600 five_rects)))).
Proof.
  split; [reflexivity|].
  apply (client_rects_end_point_sorted 10 (mkElement 600 five_rects)).
  reflexivity.
Defined.

Lemma final_validations_silent_iff_witness :
  let env := env_of_width five_options 250 in
  (Array_isArray (IsArray five_offsets) = true
   /\ 0 < 3
   /\ options env <> []
   /\ optional_current (wrapper_ref env) <> None
   /\ current (toolbar_options_ref env) <> None)
  /\ snd (final_validations 3 env (IsArray five_offsets)) = []
  /\ fst (final_validations 3 env (IsArray five_offsets)) = IsArray five_offsets.
Proof.
  cbv zeta.
  destruct (final_validations_silent_iff 3 (env_of_width five_options 250)
              (IsArray five_offsets)) as [Hsilent Hkept].
  assert (Hwell_formed :
            Array_isArray (IsArray five_offsets) = true
            /\ 0 < 3
            /\ options (env_of_width five_options 250) <> []
            /\ optional_current (wrapper_ref (env_of_width five_options 250)) <> None
            /\ current (toolbar_options_ref (env_of_width five_options 250)) <> None).
  { repeat split; discriminate. }
  split; [exact Hwell_formed|]. split.
  - apply Hsilent. exact Hwell_formed.
  - apply Hkept. reflexivity.
Defined.

Lemma populated_cache_is_kept_witness :
  toolbar_options_x_coordinates_ref captured_component = IsArray five_offsets
  /\ five_offsets <> []
  /\ exists c',
       run 10 3 later_events captured_component = Some c'
       /\ toolbar_options_x_coordinates_ref c' = IsArray five_offsets.
Proof.
  assert (Hne : five_offsets <> []) by discriminate.
  split; [reflexivity|]. split; [exact Hne|].
  apply (populated_cache_is_kept 10 3 later_events captured_component five_offsets
           eq_refl Hne).
Defined.

Lemma array_error_not_repeated_witness :
  toolbar_options_x_coordinates_ref captured_component = IsArray five_offsets
  /\ exists c' logged,
       run 10 0 later_events captured_component = Some c'
       /\ console c' = console captured_component ++ logged
       /\ ~ In (console_error
                  "Error: toolbar_options_x_coordinates_ref.current is not initialized as an array.")
               logged.
Proof.
  split; [reflexivity|].
  apply (array_error_not_repeated 10 0 later_events captured_component five_offsets
           eq_refl).
Defined.

Lemma unbound_wrapper_never_publishes_witness :
  unmounted fresh_component
  /\ (forall env, In (Effect env) unbound_events ->
                  optional_current (toolbar_wrapper_ref env) = None)
  /\ exists c',
       run 10 3 unbound_events fresh_component = Some c'
       /\ resize_listener c' = false
       /\ options_to_be_visible c' = options_to_be_visible fresh_component.
Proof.
  assert (Hfresh : unmounted fresh_component) by (repeat split; reflexivity).
  assert (Hunbound : forall env, In (Effect env) unbound_events ->
                                 optional_current (toolbar_wrapper_ref env) = None).
  { intros env Hin. simpl in Hin.
    destruct Hin as [H|[H|[H|[H|H]]]]; try discriminate H; [|contradiction].
    injection H as <-. reflexivity. }
  split; [exact Hfresh|]. split; [exact Hunbound|].
  apply (unbound_wrapper_never_publishes 10 3 unbound_events fresh_component
           Hfresh Hunbound).
Defined.

Lemma nothing_runs_after_unmount_witness :
  forallb (fun event => negb (is_render event)) events_after_unmount = true
  /\ run 10 3 (Unmount :: events_after_unmount) captured_component
     = step 10 3 Unmount captured_component.
Proof.
  split; [reflexivity|].
  apply (nothing_runs_after_unmount 10 3 events_after_unmount captured_component).
  reflexivity.
Defined.

Lemma resize_is_idempotent_witness :
  exists c',
    step 10 3 (Resize (env_of_width five_options 250)) captured_component = Some c'
    /\ step 10 3 (Resize (env_of_width five_options 250)) c' = Some c'.
Proof.
  eexists. split; [reflexivity|].
  apply (resize_is_idempotent 10 3 (env_of_width five_options 250)
           captured_component).
  reflexivity.
Defined.
